(** * Greenblatt / Faustmann screener: a shallow embedding of the pipeline

    The development follows the Python sources module by module:
    - [Py]: the fragment of Python semantics the code relies on (exceptions,
      dynamically typed values, truthiness, true division, [round], [strip]);
    - [Pandas]: the few [DataFrame] accessors used on provider data;
    - [Yf]: the market data provider as the code sees it;
    - [Files]: the HTML and CSV files, and [Bs4]: searching a parsed page
      with [find] / [find_all] / [get_text];
    - one module per source file of the repository, then the notions used
      to state the properties ([Spec]), the data of the worked scenarios
      ([Scenario]) and one module of facts per source file.

    Numbers: Python [int] is [Z]; Python [float] is idealised as an exact
    rational [Q] (the binary64 representation error is outside the model);
    the non-finite cell values NaN and infinity, which pandas uses for
    missing data, are separate constructors of [cell]. *)

From Stdlib Require Import ZArith QArith Qround Qabs Lia Lqa List.
From Stdlib Require Import Strings.String Strings.Ascii.
From Stdlib Require Import Structures.OrderedTypeEx.
From stdpp Require Import base option list gmap sets strings sorting pretty.

Local Open Scope Z_scope.
Local Open Scope string_scope.
Local Open Scope list_scope.

(* ===================================================================== *)
(** ** Python *)
(* ===================================================================== *)
Module Py.

(** The exception classes that occur in the modelled code. All of them
    derive from [Exception]; [FileNotFoundError] also derives from
    [OSError]. [ProviderError] stands for any other exception raised by
    the market data library (network failure, malformed answer, ...). *)
Inductive exn : Type :=
| KeyError | IndexError | TypeError | ValueError | OverflowError
| ZeroDivisionError | AttributeError
| FileNotFoundError | OSError
| ProviderError (msg : string).

Definition is_OSError (e : exn) : bool :=
  match e with FileNotFoundError | OSError => true | _ => false end.

(** A computation either returns a value or raises. *)
Inductive result (A : Type) : Type :=
| Ok (a : A)
| Raise (e : exn).
Global Arguments Ok {A} a.
Global Arguments Raise {A} e.

Global Instance result_ret : MRet result := fun A a => Ok a.
Global Instance result_bind : MBind result := fun A B f m =>
  match m with Ok a => f a | Raise e => Raise e end.

(** [[f(x) for x in xs]]: evaluation left to right, the first exception
    aborts the comprehension. *)
Fixpoint comprehension {A B} (f : A -> result B) (xs : list A)
  : result (list B) :=
  match xs with
  | [] => Ok []
  | x :: xs' => y ← f x; ys ← comprehension f xs'; Ok (y :: ys)
  end.

(** A [for] loop whose body may raise: the state is threaded through the
    iterations and the first exception ends the loop. *)
Fixpoint for_each {S A} (body : S -> A -> result S) (xs : list A) (s : S)
  : result S :=
  match xs with
  | [] => Ok s
  | x :: xs' => s' ← body s x; for_each body xs' s'
  end.

(** [l[i]] for a non-negative position. *)
Definition list_getitem {A} (l : list A) (i : nat) : result A :=
  match l !! i with
  | Some x => Ok x
  | None => Raise IndexError
  end.

(** Dynamically typed values found in the provider's [info] dictionary
    and in the output dictionaries. *)
Inductive pyval : Type :=
| PNone
| PInt (z : Z)
| PFloat (q : Q)
| PStr (s : string).

(** Truth value testing ([if v:]). *)
Definition truthy (v : pyval) : bool :=
  match v with
  | PNone => false
  | PInt z => negb (Z.eqb z 0)
  | PFloat q => negb (Qeq_bool q 0)
  | PStr s => negb (String.eqb s "")
  end.

Definition as_number (v : pyval) : option Q :=
  match v with
  | PInt z => Some (inject_Z z)
  | PFloat q => Some q
  | PNone | PStr _ => None
  end.

(** [a / b]: true division always yields a float; a non-numeric operand
    is a [TypeError], a zero divisor a [ZeroDivisionError]. *)
Definition truediv (a b : pyval) : result Q :=
  match as_number a, as_number b with
  | Some x, Some y =>
      if Qeq_bool y 0 then Raise ZeroDivisionError else Ok (x / y)%Q
  | _, _ => Raise TypeError
  end.

(** Nearest integer, ties to the even neighbour. *)
Definition round_half_even (q : Q) : Z :=
  let f := Qfloor q in
  match (q - inject_Z f ?= 1 # 2)%Q with
  | Lt => f
  | Gt => f + 1
  | Eq => if Z.even f then f else f + 1
  end.

(** [round(x, ndigits)] on a float. *)
Definition round (x : Q) (ndigits : nat) : Q :=
  let scale := Z.pow 10 (Z.of_nat ndigits) in
  (inject_Z (round_half_even (x * inject_Z scale)) / inject_Z scale)%Q.

(** [sum(xs)] over integers. *)
Definition sum (xs : list Z) : Z := fold_left Z.add xs 0.

(** [str.isspace] on the code points below 256. *)
Definition isspace (c : ascii) : bool :=
  let n := nat_of_ascii c in
  ((9 <=? n) && (n <=? 13) || (28 <=? n) && (n <=? 32)
   || (n =? 133) || (n =? 160))%nat.

Fixpoint lstrip (s : string) : string :=
  match s with
  | String c s' => if isspace c then lstrip s' else s
  | EmptyString => EmptyString
  end.

(** Drops trailing white space: a character is kept when it is not a
    space or when something remains after it. *)
Fixpoint rstrip (s : string) : string :=
  match s with
  | EmptyString => EmptyString
  | String c s' =>
      match rstrip s' with
      | EmptyString => if isspace c then EmptyString else String c EmptyString
      | r => String c r
      end
  end.

(** [s.strip()] *)
Definition strip (s : string) : string := rstrip (lstrip s).

End Py.
Export Py.

(* ===================================================================== *)
(** ** pandas: the accessors used on the provider's statements *)
(* ===================================================================== *)
Module Pandas.

(** One cell of a statement. [CNaN] is pandas' missing value. *)
Inductive cell : Type :=
| CInt (z : Z)
| CFloat (q : Q)
| CNaN
| CInf
| CNone.

(** [int(x)]: a finite float is truncated towards zero, NaN is a
    [ValueError], an infinity an [OverflowError], [None] a [TypeError]. *)
Definition int (x : cell) : result Z :=
  match x with
  | CInt z => Ok z
  | CFloat q => Ok (Z.quot (Qnum q) (Zpos (Qden q)))
  | CNaN => Raise ValueError
  | CInf => Raise OverflowError
  | CNone => Raise TypeError
  end.

(** A frame has row labels, column labels and a value at every pair of
    labels. *)
Record DataFrame : Type := mkDataFrame {
  index : list string;
  columns : list string;
  values : string -> string -> cell
}.

(** A row taken out of a frame: its labels are the frame's columns. *)
Record Series : Type := mkSeries {
  labels : list string;
  value_at : string -> cell
}.

(** [df.T] *)
Definition T (df : DataFrame) : DataFrame :=
  {| index := columns df;
     columns := index df;
     values := fun r c => values df c r |}.

(** [df.iloc[i]] for a non-negative position. *)
Definition iloc (df : DataFrame) (i : nat) : result Series :=
  match index df !! i with
  | Some r => Ok {| labels := columns df; value_at := values df r |}
  | None => Raise IndexError
  end.

(** [row[name]] *)
Definition getitem (row : Series) (name : string) : result cell :=
  if bool_decide (name ∈ labels row) then Ok (value_at row name)
  else Raise KeyError.

End Pandas.
Export Pandas.

(* ===================================================================== *)
(** ** yfinance: the market data provider *)
(* ===================================================================== *)
Module Yf.

(** What [yf.Ticker(symbol)] gives access to. Each property either
    raises, or is [None], or holds data. The statements are laid out as
    the provider returns them: one row per field, one column per quarter,
    most recent quarter first. *)
Record Ticker : Type := mkTicker {
  quarterly_balance_sheet : result (option DataFrame);
  quarterly_incomestmt : result (option DataFrame);
  info : result (option (gmap string pyval))
}.

(** The provider: the outcome of [yf.Ticker(symbol)] for every symbol. *)
Definition provider : Type := string -> result Ticker.

(** [x.T] where [x] may be [None]. *)
Definition attr_T (x : option DataFrame) : result DataFrame :=
  match x with
  | Some df => Ok (T df)
  | None => Raise AttributeError
  end.

End Yf.
Export Yf.

(* ===================================================================== *)
(** ** financial_data_extractor.py *)
(* ===================================================================== *)
Module FinancialDataExtractor.

(** The tuple returned by [extract_data], with the names of its
    docstring. *)
Record metrics : Type := mkMetrics {
  stock_name : pyval;
  equity : Z;
  cash : Z;
  debt : Z;
  market_cap : pyval;
  faustmann : Q;
  debt_to_equity : Q;
  roic : Q;
  price_earnings : Q
}.

(** The nested helper: the four listed exceptions give 0, any other one
    propagates. *)
Definition safe_int_access (df : DataFrame) (row_idx : nat)
    (column_name : string) : result Z :=
  match row ← iloc df row_idx; x ← getitem row column_name; int x with
  | Ok z => Ok z
  | Raise (KeyError | IndexError | TypeError | ValueError) => Ok 0
  | Raise e => Raise e
  end.

(** [net_incomes] and [net_income_ttm] *)
Definition net_incomes (income_statement : DataFrame) : result (list Z) :=
  comprehension
    (fun i => safe_int_access income_statement i "Net Income") (seq 0 4).

Definition net_income_ttm (income_statement : DataFrame) : result Z :=
  l ← net_incomes income_statement; Ok (Py.sum l).

(** [round(market_cap / denominator, 3) if denominator else 0.0] *)
Definition faustmann_of (market_cap : pyval) (denominator : Z) : result Q :=
  if truthy (PInt denominator)
  then q ← truediv market_cap (PInt denominator); Ok (round q 3)
  else Ok 0%Q.

(** [round(debt / equity, 3) if equity else 0.0] *)
Definition debt_to_equity_of (debt equity : Z) : result Q :=
  if truthy (PInt equity)
  then q ← truediv (PInt debt) (PInt equity); Ok (round q 3)
  else Ok 0%Q.

(** [round(net_income_ttm / (equity + debt), 3) if (equity + debt)
    else 0.0] *)
Definition roic_of (net_income_ttm equity debt : Z) : result Q :=
  if truthy (PInt (equity + debt))
  then q ← truediv (PInt net_income_ttm) (PInt (equity + debt));
       Ok (round q 3)
  else Ok 0%Q.

(** [round(price / eps, 2) if eps else 0.0] *)
Definition price_earnings_of (price eps : pyval) : result Q :=
  if truthy eps
  then q ← truediv price eps; Ok (round q 2)
  else Ok 0%Q.

(** The body of the [try] block; [Ok None] is the early [return None]. *)
Definition extract_data_try (yf : provider) (ticker : string)
  : result (option metrics) :=
  stock ← yf ticker;
  bs ← quarterly_balance_sheet stock;
  match bs with
  | None => Ok None
  | Some bs =>
  ist ← quarterly_incomestmt stock;
  match ist with
  | None => Ok None
  | Some ist =>
  let balance_sheet := T bs in
  let income_statement := T ist in
  equity ← safe_int_access balance_sheet 0 "Stockholders Equity";
  cash ← safe_int_access balance_sheet 0 "Cash And Cash Equivalents";
  long_term_debt ← safe_int_access balance_sheet 0 "Long Term Debt";
  current_debt ← safe_int_access balance_sheet 0 "Current Debt";
  let debt := long_term_debt + current_debt in
  i ← info stock;
  let stock_info : gmap string pyval := default ∅ i in
  let market_cap := default (PInt 0) (stock_info !! "marketCap") in
  let stock_name := default (PStr "N/A") (stock_info !! "longName") in
  let denominator := equity + cash - debt in
  faustmann ← faustmann_of market_cap denominator;
  net_income_ttm ← net_income_ttm income_statement;
  debt_to_equity ← debt_to_equity_of debt equity;
  roic ← roic_of net_income_ttm equity debt;
  let price := default (PInt 0) (stock_info !! "currentPrice") in
  let eps := default (PInt 0) (stock_info !! "trailingEps") in
  price_earnings ← price_earnings_of price eps;
  Ok (Some {| stock_name := stock_name; equity := equity; cash := cash;
              debt := debt; market_cap := market_cap;
              faustmann := faustmann; debt_to_equity := debt_to_equity;
              roic := roic; price_earnings := price_earnings |})
  end end.

(** [extract_data]: [except Exception] turns every exception into
    [None]. *)
Definition extract_data (yf : provider) (ticker : string) : option metrics :=
  match extract_data_try yf ticker with
  | Ok r => r
  | Raise _ => None
  end.

End FinancialDataExtractor.
Export FinancialDataExtractor.

(* ===================================================================== *)
(** ** ticker_validator.py *)
(* ===================================================================== *)
Module TickerValidator.

(** The body of the [try] block. *)
Definition check_ticker_validity_try (yf : provider) (ticker : string)
  : result bool :=
  stock ← yf ticker;
  bs ← quarterly_balance_sheet stock;
  balance_sheet ← attr_T bs;
  row ← iloc balance_sheet 0;
  equity ← getitem row "Stockholders Equity";
  Ok true.

(** Both [except] clauses return [False]. *)
Definition check_ticker_validity (yf : provider) (ticker : string) : bool :=
  match check_ticker_validity_try yf ticker with
  | Ok b => b
  | Raise (IndexError | KeyError) => false
  | Raise _ => false
  end.

End TickerValidator.
Export TickerValidator.

(* ===================================================================== *)
(** ** ticker_processor.py *)
(* ===================================================================== *)
Module TickerProcessor.

(** Unpacking the returned value into nine names: [None] cannot be
    unpacked. *)
Definition unpack (r : option metrics) : result metrics :=
  match r with
  | Some m => Ok m
  | None => Raise TypeError
  end.

(** [process_ticker]: the dictionary of the ten report fields, or the
    empty dictionary when the extraction or the unpacking raised. *)
Definition process_ticker (yf : provider) (ticker : string)
  : gmap string pyval :=
  match unpack (extract_data yf ticker) with
  | Raise _ => ∅
  | Ok m =>
      list_to_map
        [("Ticker", PStr ticker);
         ("Stock name", stock_name m);
         ("Equity", PInt (equity m));
         ("Cash", PInt (cash m));
         ("Debt", PInt (debt m));
         ("Market cap", market_cap m);
         ("Faustmann", PFloat (faustmann m));
         ("ROIC", PFloat (roic m));
         ("Debt to equity", PFloat (debt_to_equity m));
         ("P/E", PFloat (price_earnings m))]
  end.

End TickerProcessor.
Export TickerProcessor.

(* ===================================================================== *)
(** ** Files *)
(* ===================================================================== *)
Module Files.

(** The BeautifulSoup tree: a tag with its name, its CSS classes and its
    contents, or a piece of text. *)
#[warnings="-register-all"] Inductive PageElement : Type :=
| Tag (name : string) (class : list string) (contents : list PageElement)
| NavigableString (s : string).

(** The files the pipeline reads and writes. An HTML file is represented
    by the tree the parser builds from its text (the parser accepts any
    text); a CSV file by its rows. Opening a path in [denied] raises
    [OSError]; opening a path that holds no file for reading raises
    [FileNotFoundError]. *)
Record FileSystem : Type := mkFileSystem {
  html_files : gmap string PageElement;
  csv_files : gmap string (list (list string));
  denied : gset string
}.

Definition read_html (fs : FileSystem) (file_path : string)
  : result PageElement :=
  if bool_decide (file_path ∈ denied fs) then Raise OSError
  else match html_files fs !! file_path with
       | Some soup => Ok soup
       | None => Raise FileNotFoundError
       end.

Definition read_csv (fs : FileSystem) (file_path : string)
  : result (list (list string)) :=
  if bool_decide (file_path ∈ denied fs) then Raise OSError
  else match csv_files fs !! file_path with
       | Some rows => Ok rows
       | None => Raise FileNotFoundError
       end.

Definition write_csv (fs : FileSystem) (file_path : string)
    (rows : list (list string)) : result FileSystem :=
  if bool_decide (file_path ∈ denied fs) then Raise OSError
  else Ok {| html_files := html_files fs;
             csv_files := <[file_path := rows]> (csv_files fs);
             denied := denied fs |}.

End Files.
Export Files.

(* ===================================================================== *)
(** ** input_csv_parser.py *)
(* ===================================================================== *)
Module InputCsvParser.

(** The loop body: a row with a non-blank first field adds one ticker. *)
Definition get_tickers_step (tickers : list string) (row : list string)
  : list string :=
  match row with
  | [] => tickers
  | field :: _ =>
      let ticker := strip field in
      if truthy (PStr ticker) then tickers ++ [ticker] else tickers
  end.

(** [get_tickers]: every exception is logged and the list built so far
    (empty when the file cannot be opened) is returned. *)
Definition get_tickers (fs : FileSystem) (file_path : string) : list string :=
  match read_csv fs file_path with
  | Ok rows => fold_left get_tickers_step rows []
  | Raise _ => []
  end.

End InputCsvParser.
Export InputCsvParser.

(* ===================================================================== *)
(** ** ticker_processing_flow.py *)
(* ===================================================================== *)
Module TickerProcessingFlow.

(** One iteration of the [for] loop over the tickers. *)
Definition flow_step (yf : provider)
    (processed_data : list (gmap string pyval)) (ticker : string)
  : list (gmap string pyval) :=
  if check_ticker_validity yf ticker
  then processed_data ++ [process_ticker yf ticker]
  else processed_data.

(** The [for] loop over the ticker list. *)
Definition process_all (yf : provider) (all_tickers : list string)
  : list (gmap string pyval) :=
  fold_left (flow_step yf) all_tickers [].

Definition ticker_processing_flow (fs : FileSystem) (yf : provider)
    (tickers_csv_path : string) : list (gmap string pyval) :=
  process_all yf (get_tickers fs tickers_csv_path).

End TickerProcessingFlow.
Export TickerProcessingFlow.

(* ===================================================================== *)
(** ** BeautifulSoup: searching the tree *)
(* ===================================================================== *)
Module Bs4.

(** All elements below [e], in document order. *)
Fixpoint descendants (e : PageElement) : list PageElement :=
  match e with
  | NavigableString _ => []
  | Tag _ _ contents => flat_map (fun c => c :: descendants c) contents
  end.

(** Does [e] match a tag name and, when given, a CSS class? *)
Definition matches (name : string) (class_ : option string)
    (e : PageElement) : bool :=
  match e with
  | NavigableString _ => false
  | Tag n cs _ =>
      String.eqb n name &&
      match class_ with
      | None => true
      | Some c => bool_decide (c ∈ cs)
      end
  end.

(** [e.find_all(name)] *)
Definition find_all (name : string) (e : PageElement) : list PageElement :=
  List.filter (matches name None) (descendants e).

(** [e.find(name, {"class": c})]: the first match, or [None]. *)
Definition find (name : string) (class_ : option string) (e : PageElement)
  : option PageElement :=
  head (List.filter (matches name class_) (descendants e)).

(** The text pieces below [e], each stripped, the empty ones dropped. *)
Definition stripped_strings (e : PageElement) : list string :=
  flat_map
    (fun d => match d with
              | NavigableString s =>
                  let s' := strip s in
                  if truthy (PStr s') then [s'] else []
              | Tag _ _ _ => []
              end)
    (descendants e).

(** [e.get_text(strip=True)] *)
Definition get_text_strip (e : PageElement) : string :=
  fold_right String.append "" (stripped_strings e).

End Bs4.
Export Bs4.

(* ===================================================================== *)
(** ** screening_parser.py *)
(* ===================================================================== *)
Module ScreeningParser.

(** The body of the loop over the rows of the table body. *)
Definition row_step (tickers : list string) (row : PageElement)
  : result (list string) :=
  let cells := find_all "td" row in
  if (1 <? length cells)%nat then
    cell ← list_getitem cells 1;
    let ticker_text := get_text_strip cell in
    if truthy (PStr ticker_text) then Ok (tickers ++ [ticker_text])
    else Ok tickers
  else Ok tickers.

Definition parse_screening_html (fs : FileSystem) (file_path : string)
  : result (list string) :=
  match read_html fs file_path with
  | Raise FileNotFoundError => Ok []
  | Raise e => if is_OSError e then Ok [] else Raise e
  | Ok soup =>
      match find "table" (Some "screeningdata") soup with
      | None => Ok []
      | Some table =>
          match find "tbody" None table with
          | None => Ok []
          | Some tbody => for_each row_step (find_all "tr" tbody) []
          end
      end
  end.

End ScreeningParser.
Export ScreeningParser.

(* ===================================================================== *)
(** ** tickers_csv_aggregator.py *)
(* ===================================================================== *)
Module TickersCsvAggregator.

(** The order of [str]: code point by code point. *)
Definition str_le (s1 s2 : string) : Prop := String.leb s1 s2 = true.

Global Instance str_le_dec s1 s2 : Decision (str_le s1 s2).
Proof. unfold str_le. apply _. Defined.

(** [sorted(set(l))] *)
Definition sorted_set (l : list string) : list string :=
  merge_sort str_le (elements (list_to_set l : gset string)).

(** The per-threshold file name ([cap] is formatted in decimal). *)
Definition html_path (cap : Z) : string :=
  "./monthly_magic_formula/tickers_from_html/stock_screening_results_"
  +:+ pretty cap +:+ ".html".

(** The body of the loop over the market caps. *)
Definition aggregate_step (fs : FileSystem) (all_tickers : list string)
    (cap : Z) : result (list string) :=
  extracted_tickers ← parse_screening_html fs (html_path cap);
  Ok (all_tickers ++ extracted_tickers).

Definition unique_tickers (fs : FileSystem) (market_caps : list Z)
  : result (list string) :=
  all_tickers ← for_each (aggregate_step fs) market_caps [];
  Ok (sorted_set all_tickers).

(** One row with one field per ticker. *)
Definition csv_rows (tickers : list string) : list (list string) :=
  map (fun ticker => [ticker]) tickers.

(** [aggregate_tickers_from_html]: a failure to write is logged and
    raised again. *)
Definition aggregate_tickers_from_html (fs : FileSystem)
    (market_caps : list Z) (output_csv_path : string) : result FileSystem :=
  unique_tickers ← unique_tickers fs market_caps;
  write_csv fs output_csv_path (csv_rows unique_tickers).

End TickersCsvAggregator.
Export TickersCsvAggregator.

(* ===================================================================== *)
(** ** Notions used to state the properties *)
(* ===================================================================== *)
Module Spec.


(** The value of [field] for [quarter] in a statement as the provider
    lays it out, as an integer; 0 when the field is not reported or when
    the value is missing or cannot be converted. *)
Definition quarter_value (stmt : DataFrame) (field quarter : string) : Z :=
  if bool_decide (field ∈ index stmt) then
    match int (values stmt field quarter) with
    | Ok z => z
    | Raise _ => 0
    end
  else 0.


(** The balance sheet has a quarterly row (a row of the transposed
    frame, at any position) in which the equity field can be read. *)
Definition has_equity_row (bs : DataFrame) : Prop :=
  exists (i : nat) (row : Series) (x : cell),
    iloc (T bs) i = Ok row /\ getitem row "Stockholders Equity" = Ok x.

(** The provider has an answer for the ticker whose balance sheet has
    such a row. *)
Definition provides_equity (yf : provider) (ticker : string) : Prop :=
  exists stock bs,
    yf ticker = Ok stock /\
    quarterly_balance_sheet stock = Ok (Some bs) /\
    has_equity_row bs.



(** The body of the results table of a document, when the document has
    the table and the table has a body. *)
Definition results_body (soup : PageElement) : option PageElement :=
  table ← find "table" (Some "screeningdata") soup;
  find "tbody" None table.

(** Following the spec's words: the text of the second column of each
    row, in row order, rows with fewer than two columns skipped. *)
Definition second_column_texts (tbody : PageElement) : list string :=
  flat_map
    (fun row =>
       match find_all "td" row with
       | _ :: column2 :: _ => [get_text_strip column2]
       | _ => []
       end)
    (find_all "tr" tbody).



(** The tickers found for a threshold: what the extractor returns for
    the threshold's file. *)
Definition extracted (fs : FileSystem) (cap : Z) : list string :=
  match parse_screening_html fs (html_path cap) with
  | Ok tickers => tickers
  | Raise _ => []
  end.

(** A ticker text that is not empty. *)
Definition nonempty (t : string) : bool := negb (String.eqb t "").

(** What one row adds to the ticker list. *)
Definition row_tickers (row : PageElement) : list string :=
  match find_all "td" row with
  | _ :: column2 :: _ =>
      if nonempty (get_text_strip column2) then [get_text_strip column2]
      else []
  | _ => []
  end.

End Spec.
Export Spec.

(* ===================================================================== *)
(** ** Data for the worked scenarios *)
(* ===================================================================== *)
Module Scenario.

(** A company with equity 100, cash 20, long-term debt 30, no current
    debt, a market capitalisation of 900 and quarterly net incomes
    10, 30 and a missing third quarter. *)
Definition acme_balance_sheet : DataFrame :=
  {| index := ["Stockholders Equity"; "Cash And Cash Equivalents";
               "Long Term Debt"; "Current Debt"];
     columns := ["2024-09-30"];
     values := fun field _ =>
       if String.eqb field "Stockholders Equity" then CInt 100
       else if String.eqb field "Cash And Cash Equivalents"
            then CFloat (20 # 1)
       else if String.eqb field "Long Term Debt" then CInt 30
       else CNaN |}.

Definition acme_income_statement : DataFrame :=
  {| index := ["Net Income"];
     columns := ["2024-09-30"; "2024-06-30"; "2024-03-31"];
     values := fun _ quarter =>
       if String.eqb quarter "2024-09-30" then CInt 10
       else if String.eqb quarter "2024-06-30" then CInt 30
       else CNaN |}.

Definition acme_info : gmap string pyval :=
  list_to_map [("marketCap", PInt 900); ("longName", PStr "Acme Corp");
               ("currentPrice", PFloat (5 # 1));
               ("trailingEps", PFloat (2 # 1))].

(** A shell company: equity is reported as zero, nothing else is. *)
Definition hollow_balance_sheet : DataFrame :=
  {| index := ["Stockholders Equity"];
     columns := ["2024-09-30"];
     values := fun _ _ => CInt 0 |}.

(** ACME is complete; HOLLOW has zero equity, cash and debt; NOINC has a
    balance sheet but no income statement; any other symbol is unknown
    to the provider. *)
Definition yf : provider := fun ticker =>
  if String.eqb ticker "ACME" then
    Ok {| quarterly_balance_sheet := Ok (Some acme_balance_sheet);
          quarterly_incomestmt := Ok (Some acme_income_statement);
          info := Ok (Some acme_info) |}
  else if String.eqb ticker "HOLLOW" then
    Ok {| quarterly_balance_sheet := Ok (Some hollow_balance_sheet);
          quarterly_incomestmt := Ok (Some acme_income_statement);
          info := Ok (Some acme_info) |}
  else if String.eqb ticker "NOINC" then
    Ok {| quarterly_balance_sheet := Ok (Some acme_balance_sheet);
          quarterly_incomestmt := Ok None;
          info := Ok (Some acme_info) |}
  else Raise (ProviderError "not found").

Definition acme_metrics : metrics :=
  {| stock_name := PStr "Acme Corp"; equity := 100; cash := 20; debt := 30;
     market_cap := PInt 900;
     faustmann := round (inject_Z 900 / inject_Z 90) 3;
     debt_to_equity := round (inject_Z 30 / inject_Z 100) 3;
     roic := round (inject_Z 40 / inject_Z 130) 3;
     price_earnings := round ((5 # 1) / (2 # 1)) 2 |}.

Definition hollow_metrics : metrics :=
  {| stock_name := PStr "Acme Corp"; equity := 0; cash := 0; debt := 0;
     market_cap := PInt 900;
     faustmann := 0; debt_to_equity := 0; roic := 0;
     price_earnings := round ((5 # 1) / (2 # 1)) 2 |}.

Definition td (text : string) : PageElement :=
  Tag "td" [] [NavigableString text].

Definition page (rows : list PageElement) : PageElement :=
  Tag "[document]" []
    [Tag "html" []
       [Tag "body" []
          [Tag "table" ["screeningdata"] [Tag "tbody" [] rows]]]].

(** Rows ["1","AAPL","..."] and ["2","MSFT","..."]. *)
Definition page_250 : PageElement :=
  page [Tag "tr" [] [td "1"; td "AAPL"; td "..."];
        Tag "tr" [] [td "2"; td "MSFT"; td "..."]].

Definition page_500 : PageElement :=
  page [Tag "tr" [] [td "1"; td "MSFT"; td "..."];
        Tag "tr" [] [td "2"; td "GOOG"; td "..."]].

(** A row whose second column is blank, then a row with one column. *)
Definition blank_rows : list PageElement :=
  [Tag "tr" [] [td "1"; td "  "; td "..."]; Tag "tr" [] [td "2"]].

Definition page_blank : PageElement := page blank_rows.

(** A page without the results table. *)
Definition page_login : PageElement :=
  Tag "[document]" [] [Tag "html" [] [Tag "form" [] []]].

(** Thresholds 250 and 500 have their page, 1000 has the blank page,
    1500 a page without table, 2500 cannot be opened and nothing else
    exists; the ticker list for the processing flow names a complete
    company, one without income statement and an unknown symbol. *)
Definition fs : FileSystem :=
  {| html_files :=
       list_to_map [(html_path 250, page_250); (html_path 500, page_500);
                    (html_path 1000, page_blank);
                    (html_path 1500, page_login);
                    (html_path 2500, page_250)];
     csv_files :=
       {[ "tickers.csv" := [["ACME"]; ["NOINC"]; [" "]; ["UNKNOWN"]] ]};
     denied := {[ html_path 2500 ]} |}.

End Scenario.

(* ===================================================================== *)
(** ** Further notions and data *)
(* ===================================================================== *)
Module MoreSpec.

(** The value of [field] in the most recent quarter of a statement as the
    provider lays it out; 0 when there is no quarter, when the field is
    not reported, or when the value is missing or cannot be converted. *)
Definition latest_value (stmt : DataFrame) (field : string) : Z :=
  match columns stmt !! 0%nat with
  | Some quarter => quarter_value stmt field quarter
  | None => 0
  end.



(** Did the metrics computation return a record for the ticker? *)
Definition retrieved (yf : provider) (ticker : string) : bool :=
  match extract_data yf ticker with
  | Some _ => true
  | None => false
  end.

(** A string without white space at either end. *)
Definition stripped (s : string) : Prop := strip s = s.

End MoreSpec.
Export MoreSpec.

Module MoreScenario.

(** A balance sheet whose equity is reported as infinite. *)
Definition glitch_balance_sheet : DataFrame :=
  {| index := ["Stockholders Equity"];
     columns := ["2024-09-30"];
     values := fun _ _ => CInf |}.

(** GLITCH has the infinite equity; BARE is the complete company of the
    first scenario without its metadata. *)
Definition yf : provider := fun ticker =>
  if String.eqb ticker "GLITCH" then
    Ok {| quarterly_balance_sheet := Ok (Some glitch_balance_sheet);
          quarterly_incomestmt := Ok (Some Scenario.acme_income_statement);
          info := Ok (Some Scenario.acme_info) |}
  else if String.eqb ticker "BARE" then
    Ok {| quarterly_balance_sheet := Ok (Some Scenario.acme_balance_sheet);
          quarterly_incomestmt := Ok (Some Scenario.acme_income_statement);
          info := Ok None |}
  else Raise (ProviderError "not found").

Definition bare_stock : Ticker :=
  {| quarterly_balance_sheet := Ok (Some Scenario.acme_balance_sheet);
     quarterly_incomestmt := Ok (Some Scenario.acme_income_statement);
     info := Ok None |}.

Definition bare_metrics : metrics :=
  {| stock_name := PStr "N/A"; equity := 100; cash := 20; debt := 30;
     market_cap := PInt 0;
     faustmann := round (inject_Z 0 / inject_Z 90) 3;
     debt_to_equity := round (inject_Z 30 / inject_Z 100) 3;
     roic := round (inject_Z 40 / inject_Z 130) 3;
     price_earnings := 0 |}.

(** The file system of the first scenario after the aggregation of the
    thresholds 250 and 500 into "tickers.csv". *)
Definition aggregated_fs : FileSystem :=
  {| html_files := html_files Scenario.fs;
     csv_files :=
       <["tickers.csv" := [["AAPL"]; ["GOOG"]; ["MSFT"]]]>
         (csv_files Scenario.fs);
     denied := denied Scenario.fs |}.

End MoreScenario.

(* ===================================================================== *)
(** ** Proof automation *)
(* ===================================================================== *)
Module BindTactics.

(** Case analysis on the outcome of the first computation of a chain of
    binds. *)
Ltac first_computation m :=
  lazymatch m with
  | mbind _ ?m' => first_computation m'
  | _ => m
  end.

Ltac step H :=
  match type of H with
  | mbind _ ?m = _ =>
      let c := first_computation m in
      let E := fresh "E" in
      destruct c eqn:E; simpl in H; [|discriminate H]
  | match mbind _ ?m with _ => _ end = _ =>
      let c := first_computation m in
      let E := fresh "E" in
      destruct c eqn:E; simpl in H; [|discriminate H]
  end.

End BindTactics.

(* ===================================================================== *)
(** ** Facts about the Python fragment *)
(* ===================================================================== *)
Module PyFacts.



Lemma truthy_int (z : Z) : truthy (PInt z) = false <-> z = 0.
Proof.
  simpl. destruct (Z.eqb_spec z 0); simpl; split; congruence.
Qed.



Lemma truediv_Ok_number (a b : pyval) (q : Q) :
  truediv a b = Ok q ->
  exists x y, as_number a = Some x /\ as_number b = Some y /\
              q = (x / y)%Q.
Proof.
  unfold truediv. destruct (as_number a) as [x|]; [|discriminate].
  destruct (as_number b) as [y|]; [|discriminate].
  destruct (Qeq_bool y 0); [discriminate|].
  intros [= <-]. eauto.
Qed.

End PyFacts.

(* ===================================================================== *)
(** ** financial_data_extractor.py: properties *)
(* ===================================================================== *)
Module ExtractorFacts.
Import PyFacts BindTactics.

(** What a successful extraction went through. *)
Lemma extract_data_Some (yf : provider) (ticker : string) (m : metrics) :
  extract_data yf ticker = Some m ->
  exists stock bs ist i ttm ltd cd,
    yf ticker = Ok stock /\
    quarterly_balance_sheet stock = Ok (Some bs) /\
    quarterly_incomestmt stock = Ok (Some ist) /\
    info stock = Ok i /\
    safe_int_access (T bs) 0 "Stockholders Equity" = Ok (equity m) /\
    safe_int_access (T bs) 0 "Cash And Cash Equivalents" = Ok (cash m) /\
    safe_int_access (T bs) 0 "Long Term Debt" = Ok ltd /\
    safe_int_access (T bs) 0 "Current Debt" = Ok cd /\
    debt m = ltd + cd /\
    market_cap m = default (PInt 0) (default ∅ i !! "marketCap") /\
    faustmann_of (market_cap m) (equity m + cash m - debt m)
      = Ok (faustmann m) /\
    net_income_ttm (T ist) = Ok ttm /\
    debt_to_equity_of (debt m) (equity m) = Ok (debt_to_equity m) /\
    roic_of ttm (equity m) (debt m) = Ok (roic m).
Proof.
  unfold extract_data, extract_data_try. intros H.
  step H. rename a into stock.
  step H. destruct a as [bs|]; [|discriminate H].
  step H. destruct a as [ist|]; [|discriminate H].
  do 4 step H. step H. do 5 step H.
  injection H as <-. simpl.
  repeat eexists; eauto.
Qed.

(** The three ratio expressions with a zero denominator. *)
Lemma faustmann_of_zero (market_cap : pyval) :
  faustmann_of market_cap 0 = Ok 0%Q.
Proof. reflexivity. Qed.



(** ... and with a non-zero one. *)
Lemma faustmann_of_Ok (market_cap : pyval) (d : Z) (f : Q) :
  d <> 0 -> faustmann_of market_cap d = Ok f ->
  exists mc, as_number market_cap = Some mc /\
             f = round (mc / inject_Z d) 3.
Proof.
  intros Hd. unfold faustmann_of.
  destruct (truthy (PInt d)) eqn:Ht;
    [|apply truthy_int in Ht; contradiction].
  destruct (truediv market_cap (PInt d)) as [q|] eqn:Hq;
    simpl; [|discriminate].
  intros [= <-].
  apply truediv_Ok_number in Hq as (x & y & Hx & [= <-] & ->). eauto.
Qed.



(** Reading a position of the transposed statement reads the quarter at
    that position, and nothing beyond the last quarter. *)
Lemma safe_int_access_T (stmt : DataFrame) (i : nat) (field : string)
    (z : Z) :
  safe_int_access (T stmt) i field = Ok z ->
  z = match columns stmt !! i with
      | Some quarter => quarter_value stmt field quarter
      | None => 0
      end.
Proof.
  unfold safe_int_access, iloc, getitem, quarter_value. simpl.
  destruct (columns stmt !! i) as [quarter|]; simpl; [|congruence].
  destruct (bool_decide (field ∈ index stmt)); simpl; [|congruence].
  destruct (values stmt field quarter); simpl; congruence.
Qed.





(** The spec's scenario: equity 100, cash 20, debt 30, market cap 900
    and a trailing net income of 40 give 10.0, 0.308 and 0.3. *)
Example scenario_extraction :
  extract_data Scenario.yf "ACME" = Some Scenario.acme_metrics.
Proof. vm_compute. reflexivity. Qed.

Example scenario_ratios :
  Qeq (faustmann Scenario.acme_metrics) (10 # 1) /\
  Qeq (roic Scenario.acme_metrics) (308 # 1000) /\
  Qeq (debt_to_equity Scenario.acme_metrics) (3 # 10).
Proof. repeat split. Qed.

Example scenario_zero_denominators :
  extract_data Scenario.yf "HOLLOW" = Some Scenario.hollow_metrics.
Proof. vm_compute. reflexivity. Qed.






(** Absence is the provider's [None]. A statement that is present but
    has no quarter is read as zeros. *)
Example empty_statement_is_read_as_zeros :
  let empty := {| index := []; columns := []; values := fun _ _ => CNaN |} in
  let yf : provider := fun _ =>
    Ok {| quarterly_balance_sheet := Ok (Some empty);
          quarterly_incomestmt := Ok (Some empty);
          info := Ok None |} in
  extract_data yf "ANY"
  = Some {| stock_name := PStr "N/A"; equity := 0; cash := 0; debt := 0;
            market_cap := PInt 0; faustmann := 0; debt_to_equity := 0;
            roic := 0; price_earnings := 0 |}.
Proof. vm_compute. reflexivity. Qed.

End ExtractorFacts.

(* ===================================================================== *)
(** ** ticker_validator.py: properties *)
(* ===================================================================== *)
Module ValidatorFacts.
Import BindTactics.

(** The rows of a frame all carry the frame's columns: a field that can
    be read in some row can be read in the first one. *)
Lemma first_row_has_field (df : DataFrame) (i : nat) (row : Series)
    (name : string) (x : cell) :
  iloc df i = Ok row -> getitem row name = Ok x ->
  exists row0 x0, iloc df 0 = Ok row0 /\ getitem row0 name = Ok x0.
Proof.
  unfold iloc, getitem.
  destruct (index df !! i) as [r|] eqn:Hi; [|discriminate].
  intros [= <-]. simpl.
  destruct (bool_decide (name ∈ columns df)) eqn:Hc; [|discriminate].
  intros _.
  destruct (index df) as [|r0 rs]; [discriminate Hi|]. simpl.
  eexists _, _. split; [reflexivity|]. simpl. now rewrite Hc.
Qed.

(** C9. The validator returns true exactly when the provider answers
    with a balance sheet that has at least one quarterly row in which
    the equity field can be read; and whenever anything raises inside
    it (no data, a missing row or field, a provider error) it returns
    false. *)
Theorem check_ticker_validity_spec (yf : provider) (ticker : string) :
  (check_ticker_validity yf ticker = true <-> provides_equity yf ticker) /\
  (forall e, check_ticker_validity_try yf ticker = Raise e ->
             check_ticker_validity yf ticker = false).
Proof.
  split; [split|].
  - unfold check_ticker_validity.
    destruct (check_ticker_validity_try yf ticker) as [b|e] eqn:H;
      [intros ->|destruct e; discriminate].
    unfold check_ticker_validity_try in H.
    step H. rename a into stock.
    step H. destruct a as [bs|]; [|discriminate H]. simpl in H.
    step H. step H.
    exists stock, bs. do 2 (split; [assumption|]).
    exists 0%nat. eauto.
  - intros (stock & bs & Hs & Hb & i & row & x & Hrow & Hx).
    destruct (first_row_has_field _ _ _ _ _ Hrow Hx)
      as (row0 & x0 & Hrow0 & Hx0).
    unfold check_ticker_validity, check_ticker_validity_try.
    rewrite Hs. simpl. rewrite Hb. simpl. rewrite Hrow0. simpl.
    now rewrite Hx0.
  - intros e He. unfold check_ticker_validity. rewrite He.
    now destruct e.
Qed.

Lemma check_ticker_validity_spec_witness :
  check_ticker_validity_try Scenario.yf "UNKNOWN"
    = Raise (ProviderError "not found") /\
  check_ticker_validity Scenario.yf "UNKNOWN" = false.
Proof.
  split; [reflexivity|].
  apply (proj2 (check_ticker_validity_spec Scenario.yf "UNKNOWN")
               (ProviderError "not found")).
  reflexivity.
Defined.

Example validator_accepts_acme :
  check_ticker_validity Scenario.yf "ACME" = true.
Proof. reflexivity. Qed.

(** The validator only looks at the balance sheet: a ticker without an
    income statement passes. *)
Example validator_accepts_noinc :
  check_ticker_validity Scenario.yf "NOINC" = true.
Proof. reflexivity. Qed.

(** Only the presence of the field is tested, not its value: a missing
    (NaN) equity passes, and the extraction then reads it as 0. *)
Example validator_accepts_missing_value :
  let bs := {| index := ["Stockholders Equity"]; columns := ["2024-09-30"];
               values := fun _ _ => CNaN |} in
  let yf : provider := fun _ =>
    Ok {| quarterly_balance_sheet := Ok (Some bs);
          quarterly_incomestmt := Ok None; info := Ok None |} in
  check_ticker_validity yf "ANY" = true.
Proof. reflexivity. Qed.

End ValidatorFacts.

(* ===================================================================== *)
(** ** ticker_processing_flow.py: properties *)
(* ===================================================================== *)
Module FlowFacts.

Lemma fold_flow_step (yf : provider) (tickers : list string)
    (acc : list (gmap string pyval)) :
  fold_left (flow_step yf) tickers acc
  = acc ++ map (process_ticker yf)
             (List.filter (check_ticker_validity yf) tickers).
Proof.
  revert acc. induction tickers as [|t ts IH]; intros acc; simpl.
  - now rewrite app_nil_r.
  - rewrite IH. unfold flow_step.
    destruct (check_ticker_validity yf t); simpl; [|reflexivity].
    now rewrite <- app_assoc.
Qed.

(** The flow visits the tickers in list order and appends the result of
    [process_ticker] for every ticker that passes validation, whatever
    that result is. *)
Lemma process_all_spec (yf : provider) (tickers : list string) :
  process_all yf tickers
  = map (process_ticker yf)
        (List.filter (check_ticker_validity yf) tickers).
Proof. unfold process_all. now rewrite fold_flow_step. Qed.

(** [process_ticker] returns the empty dictionary exactly when the
    metrics computation yields absent. *)
Lemma process_ticker_empty (yf : provider) (ticker : string) :
  process_ticker yf ticker = ∅ <-> extract_data yf ticker = None.
Proof.
  unfold process_ticker.
  destruct (extract_data yf ticker) as [m|]; simpl; [|easy].
  split; [|discriminate]. intros H.
  apply (f_equal (fun d : gmap string pyval => d !! "Ticker")) in H.
  vm_compute in H. discriminate H.
Qed.

(** C1, at the input where the code departs from it. NOINC passes
    validation and its metrics computation yields absent; the flow
    nevertheless appends an entry for it, the empty dictionary, after
    the record of ACME. *)
Theorem flow_appends_empty_record :
  get_tickers Scenario.fs "tickers.csv" = ["ACME"; "NOINC"; "UNKNOWN"] /\
  check_ticker_validity Scenario.yf "NOINC" = true /\
  extract_data Scenario.yf "NOINC" = None /\
  ticker_processing_flow Scenario.fs Scenario.yf "tickers.csv"
  = [process_ticker Scenario.yf "ACME"; ∅].
Proof. repeat split; vm_compute; reflexivity. Qed.

End FlowFacts.

(* ===================================================================== *)
(** ** screening_parser.py: properties *)
(* ===================================================================== *)
Module ParserFacts.

(** The guard on the number of cells makes the access to the second
    cell safe: the loop body never raises. *)
Lemma row_step_spec (tickers : list string) (row : PageElement) :
  row_step tickers row = Ok (tickers ++ row_tickers row).
Proof.
  unfold row_step, row_tickers, list_getitem, nonempty.
  destruct (find_all "td" row) as [|c0 [|c1 rest]]; simpl;
    rewrite ?app_nil_r; try reflexivity.
  destruct (negb (String.eqb (get_text_strip c1) ""));
    simpl; now rewrite ?app_nil_r.
Qed.

Lemma for_each_row_step (rows : list PageElement) (acc : list string) :
  for_each row_step rows acc = Ok (acc ++ flat_map row_tickers rows).
Proof.
  revert acc. induction rows as [|row rows IH]; intros acc; simpl.
  - now rewrite app_nil_r.
  - rewrite row_step_spec. simpl. rewrite IH. now rewrite <- app_assoc.
Qed.

Lemma row_tickers_filter (rows : list PageElement) :
  flat_map row_tickers rows
  = List.filter nonempty
      (flat_map
         (fun row =>
            match find_all "td" row with
            | _ :: column2 :: _ => [get_text_strip column2]
            | _ => []
            end) rows).
Proof.
  induction rows as [|row rows IH]; simpl; [reflexivity|].
  rewrite List.filter_app, <- IH. f_equal.
  unfold row_tickers.
  destruct (find_all "td" row) as [|c0 [|c1 rest]]; reflexivity.
Qed.

(** Opening a file fails with an [OSError] only. *)
Lemma read_html_Raise (fs : FileSystem) (file_path : string) (e : exn) :
  read_html fs file_path = Raise e -> is_OSError e = true.
Proof.
  unfold read_html.
  destruct (bool_decide (file_path ∈ denied fs)); [now intros [= <-]|].
  destruct (html_files fs !! file_path); [discriminate|now intros [= <-]].
Qed.


(** The outcome of the extractor on a readable file. *)
Lemma parse_screening_html_read (fs : FileSystem) (file_path : string)
    (soup : PageElement) :
  read_html fs file_path = Ok soup ->
  parse_screening_html fs file_path
  = Ok match results_body soup with
       | Some tbody => flat_map row_tickers (find_all "tr" tbody)
       | None => []
       end.
Proof.
  intros Hr. unfold parse_screening_html, results_body. rewrite Hr.
  destruct (find "table" (Some "screeningdata") soup) as [table|];
    simpl; [|reflexivity].
  destruct (find "tbody" None table) as [tbody|]; simpl; [|reflexivity].
  apply for_each_row_step.
Qed.

Lemma parse_screening_html_unread (fs : FileSystem) (file_path : string)
    (e : exn) :
  read_html fs file_path = Raise e ->
  parse_screening_html fs file_path = Ok [].
Proof.
  intros Hr. unfold parse_screening_html. rewrite Hr.
  rewrite (read_html_Raise _ _ _ Hr). now destruct e.
Qed.

(** The extractor never raises. *)
Lemma parse_screening_html_total (fs : FileSystem) (file_path : string) :
  exists tickers, parse_screening_html fs file_path = Ok tickers.
Proof.
  destruct (read_html fs file_path) as [soup|e] eqn:Hr.
  - rewrite (parse_screening_html_read _ _ _ Hr). eauto.
  - rewrite (parse_screening_html_unread _ _ _ Hr). eauto.
Qed.

Lemma parse_screening_html_extracted (fs : FileSystem) (cap : Z) :
  parse_screening_html fs (html_path cap) = Ok (extracted fs cap).
Proof.
  unfold extracted.
  destruct (parse_screening_html_total fs (html_path cap)) as [l ->].
  reflexivity.
Qed.

(** C6, as stated, fails on a row whose second column is blank: the
    extractor does not return the (empty) text of that column. *)
Lemma blank_second_column_counterexample :
  ~ (forall fs file_path soup tbody,
       read_html fs file_path = Ok soup ->
       results_body soup = Some tbody ->
       parse_screening_html fs file_path
       = Ok (second_column_texts tbody)).
Proof.
  intros H.
  specialize (H Scenario.fs (html_path 1000) Scenario.page_blank
                (Tag "tbody" [] Scenario.blank_rows)
                eq_refl eq_refl).
  vm_compute in H. discriminate H.
Qed.

(** C6, amended. For every HTML input containing the results table
    with a body, the extractor returns, in row order, the text of the
    second column of each row of the table body (duplicates possible),
    skipping the rows with fewer than two columns and the rows whose
    second column has no text. *)
Theorem parse_returns_second_columns (fs : FileSystem) (file_path : string)
    (soup tbody : PageElement) :
  read_html fs file_path = Ok soup ->
  results_body soup = Some tbody ->
  parse_screening_html fs file_path
  = Ok (List.filter nonempty (second_column_texts tbody)).
Proof.
  intros Hr Hb. rewrite (parse_screening_html_read _ _ _ Hr), Hb.
  now rewrite row_tickers_filter.
Qed.

(** The spec's scenario: rows ["1","AAPL","..."], ["2","MSFT","..."]
    yield ["AAPL","MSFT"]. *)
Lemma parse_returns_second_columns_witness :
  parse_screening_html Scenario.fs (html_path 250) = Ok ["AAPL"; "MSFT"].
Proof.
  rewrite (parse_returns_second_columns Scenario.fs (html_path 250)
             Scenario.page_250
             (Tag "tbody" []
                [Tag "tr" [] [Scenario.td "1"; Scenario.td "AAPL";
                              Scenario.td "..."];
                 Tag "tr" [] [Scenario.td "2"; Scenario.td "MSFT";
                              Scenario.td "..."]])
             eq_refl eq_refl).
  reflexivity.
Defined.



Lemma row_tickers_nonempty (row : PageElement) :
  Forall (fun t => t <> "") (row_tickers row).
Proof.
  unfold row_tickers, nonempty.
  destruct (find_all "td" row) as [|c0 [|c1 rest]]; try constructor.
  destruct (String.eqb_spec (get_text_strip c1) ""); simpl;
    repeat constructor; assumption.
Qed.

(** C10. Every ticker returned by the extractor is a non-empty string;
    a row whose second column exists but has only empty text adds
    nothing to the tickers collected from the rows around it. *)
Theorem extracted_tickers_nonempty :
  (forall fs file_path tickers,
     parse_screening_html fs file_path = Ok tickers ->
     Forall (fun t => t <> "") tickers) /\
  (forall rows1 row rows2 column1 column2 others,
     find_all "td" row = column1 :: column2 :: others ->
     get_text_strip column2 = "" ->
     for_each row_step (rows1 ++ row :: rows2) []
     = for_each row_step (rows1 ++ rows2) []).
Proof.
  split.
  - intros fs file_path tickers.
    destruct (read_html fs file_path) as [soup|e] eqn:Hr.
    + rewrite (parse_screening_html_read _ _ _ Hr). intros [= <-].
      destruct (results_body soup) as [tbody|]; [|constructor].
      induction (find_all "tr" tbody) as [|row rows IH]; simpl;
        [constructor|].
      apply Forall_app. split; [apply row_tickers_nonempty|exact IH].
    + rewrite (parse_screening_html_unread _ _ _ Hr). intros [= <-].
      constructor.
  - intros rows1 row rows2 c1 c2 others Hc Ht.
    rewrite !for_each_row_step, !flat_map_app. simpl.
    unfold row_tickers at 2. rewrite Hc, Ht. reflexivity.
Qed.

Lemma extracted_tickers_nonempty_witness :
  parse_screening_html Scenario.fs (html_path 250) = Ok ["AAPL"; "MSFT"] /\
  Forall (fun t => t <> "") ["AAPL"; "MSFT"].
Proof.
  split; [reflexivity|].
  apply (proj1 extracted_tickers_nonempty Scenario.fs (html_path 250)).
  reflexivity.
Defined.

End ParserFacts.

(* ===================================================================== *)
(** ** tickers_csv_aggregator.py: properties *)
(* ===================================================================== *)
Module AggregatorFacts.
Import ParserFacts.

Lemma str_le_alt (s1 s2 : string) :
  str_le s1 s2 <-> s1 = s2 \/ String_as_OT.lt s1 s2.
Proof.
  unfold str_le, String.leb.
  destruct (String.compare s1 s2) eqn:Hc.
  - apply String_as_OT.cmp_eq in Hc. tauto.
  - apply String_as_OT.cmp_lt in Hc. tauto.
  - split; [discriminate|]. intros [->|Hlt].
    + pose proof (proj2 (String_as_OT.cmp_eq s2 s2) eq_refl) as He.
      unfold String_as_OT.cmp in He. congruence.
    + apply String_as_OT.cmp_lt in Hlt.
      unfold String_as_OT.cmp in Hlt. congruence.
Qed.

Global Instance str_le_total : Total str_le.
Proof. intros s1 s2. apply String.leb_total. Qed.

Global Instance str_le_trans : Transitive str_le.
Proof.
  intros s1 s2 s3. rewrite !str_le_alt.
  intros [->|H12] [->|H23]; auto.
  right. exact (String_as_OT.lt_trans _ _ _ H12 H23).
Qed.

Global Instance str_le_antisym : AntiSymm (=) str_le.
Proof. intros s1 s2. apply String.leb_antisym. Qed.

Lemma sorted_set_sorted (l : list string) :
  StronglySorted str_le (sorted_set l).
Proof. apply StronglySorted_merge_sort; apply _. Qed.

Lemma sorted_set_NoDup (l : list string) : NoDup (sorted_set l).
Proof.
  unfold sorted_set. rewrite merge_sort_Permutation. apply NoDup_elements.
Qed.

Lemma elem_of_sorted_set (l : list string) (t : string) :
  t ∈ sorted_set l <-> t ∈ l.
Proof.
  unfold sorted_set.
  rewrite merge_sort_Permutation, elem_of_elements, elem_of_list_to_set.
  reflexivity.
Qed.

(** The result depends on the set of the collected tickers only. *)
Lemma sorted_set_ext (l1 l2 : list string) :
  (forall t, t ∈ l1 <-> t ∈ l2) -> sorted_set l1 = sorted_set l2.
Proof.
  intros H. unfold sorted_set. f_equal. f_equal.
  apply set_eq. intros t. rewrite !elem_of_list_to_set. apply H.
Qed.

(** The loop body never raises: the extractor does not. *)
Lemma aggregate_step_spec (fs : FileSystem) (all_tickers : list string)
    (cap : Z) :
  aggregate_step fs all_tickers cap
  = Ok (all_tickers ++ extracted fs cap).
Proof.
  unfold aggregate_step. now rewrite parse_screening_html_extracted.
Qed.

Lemma for_each_aggregate_step (fs : FileSystem) (market_caps : list Z)
    (acc : list string) :
  for_each (aggregate_step fs) market_caps acc
  = Ok (acc ++ flat_map (extracted fs) market_caps).
Proof.
  revert acc. induction market_caps as [|cap caps IH]; intros acc.
  - simpl. now rewrite app_nil_r.
  - cbn [for_each flat_map]. rewrite aggregate_step_spec.
    cbn [mbind result_bind]. rewrite IH. now rewrite <- app_assoc.
Qed.

Lemma unique_tickers_spec (fs : FileSystem) (market_caps : list Z) :
  unique_tickers fs market_caps
  = Ok (sorted_set (flat_map (extracted fs) market_caps)).
Proof.
  unfold unique_tickers. now rewrite for_each_aggregate_step.
Qed.

Lemma elem_of_flat_map_extracted (fs : FileSystem) (market_caps : list Z)
    (t : string) :
  t ∈ flat_map (extracted fs) market_caps <->
  exists cap, cap ∈ market_caps /\ t ∈ extracted fs cap.
Proof.
  rewrite list_elem_of_In, in_flat_map.
  split; intros (cap & Hc & Ht); exists cap;
    rewrite ?list_elem_of_In in *; auto.
Qed.

(** C5. For every sequence of thresholds, whatever the extractor finds
    for each of them, the aggregation writes to the output file (when
    it can be written) one row per ticker, holding the ticker alone,
    for a list of tickers that is sorted in the order of strings, has
    no duplicate and contains exactly the tickers extracted for some
    threshold; and any other sequence made of the same thresholds, in
    any order and with any repetition, gives the same result. *)
Theorem aggregate_sorted_unique_union (fs : FileSystem)
    (market_caps : list Z) (output_csv_path : string) :
  output_csv_path ∉ denied fs ->
  exists final fs',
    aggregate_tickers_from_html fs market_caps output_csv_path = Ok fs' /\
    csv_files fs' !! output_csv_path = Some (map (fun t => [t]) final) /\
    StronglySorted str_le final /\
    NoDup final /\
    (forall t, t ∈ final <->
               exists cap, cap ∈ market_caps /\ t ∈ extracted fs cap) /\
    (forall market_caps',
       (forall cap, cap ∈ market_caps' <-> cap ∈ market_caps) ->
       aggregate_tickers_from_html fs market_caps' output_csv_path
       = Ok fs').
Proof.
  intros Hw.
  assert (Hagg : forall caps,
    aggregate_tickers_from_html fs caps output_csv_path
    = Ok {| html_files := html_files fs;
            csv_files :=
              <[output_csv_path :=
                  csv_rows (sorted_set (flat_map (extracted fs) caps))]>
                (csv_files fs);
            denied := denied fs |}).
  { intros caps. unfold aggregate_tickers_from_html.
    rewrite unique_tickers_spec. simpl. unfold write_csv.
    now rewrite bool_decide_eq_false_2. }
  eexists _, _. split; [apply Hagg|].
  split; [simpl; apply lookup_insert_eq|].
  split; [apply sorted_set_sorted|].
  split; [apply sorted_set_NoDup|].
  split.
  - intros t. rewrite elem_of_sorted_set.
    apply elem_of_flat_map_extracted.
  - intros caps' Hsame. rewrite Hagg.
    rewrite (sorted_set_ext (flat_map (extracted fs) caps')
               (flat_map (extracted fs) market_caps)); [reflexivity|].
    intros t.
    rewrite !elem_of_flat_map_extracted.
    split; intros (cap & Hc & Ht); exists cap; split; auto;
      now apply Hsame.
Qed.

(** The spec's scenario: 250 gives AAPL, MSFT and 500 gives MSFT, GOOG;
    the file holds AAPL, GOOG, MSFT, also for the thresholds taken in
    the other order, with a repetition. *)
Example scenario_aggregation :
  match aggregate_tickers_from_html Scenario.fs [250; 500] "tickers.csv" with
  | Ok fs' => csv_files fs' !! "tickers.csv"
  | Raise _ => None
  end = Some [["AAPL"]; ["GOOG"]; ["MSFT"]] /\
  aggregate_tickers_from_html Scenario.fs [500; 250; 500] "tickers.csv"
  = aggregate_tickers_from_html Scenario.fs [250; 500] "tickers.csv".
Proof. split; vm_compute; reflexivity. Qed.

Lemma aggregate_sorted_unique_union_witness :
  ("tickers.csv" ∉ denied Scenario.fs) /\
  exists final fs',
    aggregate_tickers_from_html Scenario.fs [250; 500] "tickers.csv"
      = Ok fs' /\
    csv_files fs' !! "tickers.csv" = Some (map (fun t => [t]) final) /\
    StronglySorted str_le final /\
    NoDup final /\
    (forall t, t ∈ final <->
               exists cap, cap ∈ [250; 500] /\
                           t ∈ extracted Scenario.fs cap) /\
    (forall market_caps',
       (forall cap, cap ∈ market_caps' <-> cap ∈ [250; 500]) ->
       aggregate_tickers_from_html Scenario.fs market_caps' "tickers.csv"
       = Ok fs').
Proof.
  assert (H : "tickers.csv" ∉ denied Scenario.fs)
    by (vm_compute; set_solver).
  split; [exact H|].
  exact (aggregate_sorted_unique_union Scenario.fs [250; 500]
           "tickers.csv" H).
Defined.

End AggregatorFacts.

(* ===================================================================== *)
(** ** Python: facts about [strip] *)
(* ===================================================================== *)
Module StripFacts.

(** [s] is empty or starts with a character that is not white space. *)
Lemma lstrip_head (s : string) (c : ascii) (r : string) :
  lstrip s = String c r -> isspace c = false.
Proof.
  induction s as [|d s IH]; simpl; [discriminate|].
  destruct (isspace d) eqn:Hd; [exact IH|].
  intros [= <- _]. exact Hd.
Qed.

Lemma lstrip_fixed (c : ascii) (r : string) :
  isspace c = false -> lstrip (String c r) = String c r.
Proof. intros H. simpl. now rewrite H. Qed.

Lemma rstrip_head (s : string) (c : ascii) (r : string) :
  rstrip s = String c r -> exists r', s = String c r'.
Proof.
  destruct s as [|d s]; simpl; [discriminate|].
  destruct (rstrip s); [destruct (isspace d); [discriminate|]|];
    intros [= <- _]; eauto.
Qed.

Lemma rstrip_idem (s : string) : rstrip (rstrip s) = rstrip s.
Proof.
  induction s as [|c s IH]; simpl; [reflexivity|].
  destruct (rstrip s) as [|d r] eqn:Hr.
  - destruct (isspace c) eqn:Hc; simpl; [reflexivity|]. now rewrite Hc.
  - simpl in *. now rewrite IH.
Qed.

Lemma strip_idem (s : string) : strip (strip s) = strip s.
Proof.
  unfold strip.
  destruct (rstrip (lstrip s)) as [|c r] eqn:Hs; [reflexivity|].
  destruct (rstrip_head _ _ _ Hs) as [r' Hl].
  rewrite (lstrip_fixed c r (lstrip_head _ _ _ Hl)).
  rewrite <- Hs. apply rstrip_idem.
Qed.

(** Appending in front of a non-empty string without trailing space. *)
Lemma rstrip_app (a b : string) :
  b <> "" -> rstrip b = b -> rstrip (a +:+ b) = a +:+ b.
Proof.
  intros Hb Hr. induction a as [|c a IH]; [exact Hr|].
  change (String c a +:+ b) with (String c (a +:+ b)). simpl. rewrite IH.
  destruct (a +:+ b) eqn:Hab; [|reflexivity].
  destruct a; simpl in Hab; [contradiction|discriminate].
Qed.

Lemma lstrip_app (a b : string) :
  a <> "" -> lstrip a = a -> lstrip (a +:+ b) = a +:+ b.
Proof.
  intros Ha Hl. destruct a as [|c a]; [contradiction|].
  pose proof (lstrip_head _ _ _ Hl) as Hc.
  change (String c a +:+ b) with (String c (a +:+ b)).
  now apply lstrip_fixed.
Qed.

Lemma strip_lstrip (s : string) : lstrip (strip s) = strip s.
Proof.
  unfold strip. destruct (rstrip (lstrip s)) as [|c r] eqn:Hs; [reflexivity|].
  destruct (rstrip_head _ _ _ Hs) as [r' Hl].
  exact (lstrip_fixed c r (lstrip_head _ _ _ Hl)).
Qed.

Lemma strip_rstrip (s : string) : rstrip (strip s) = strip s.
Proof. unfold strip. apply rstrip_idem. Qed.

Lemma append_empty_r (s : string) : s +:+ "" = s.
Proof.
  induction s as [|c s IH]; [reflexivity|].
  change (String c s +:+ "") with (String c (s +:+ "")). now rewrite IH.
Qed.

(** The concatenation of stripped non-empty pieces has no white space at
    either end. *)
Lemma concat_stripped (pieces : list string) :
  Forall (fun p => p <> "" /\ lstrip p = p /\ rstrip p = p) pieces ->
  let s := fold_right String.append "" pieces in
  lstrip s = s /\ rstrip s = s /\ (pieces <> [] -> s <> "").
Proof.
  induction 1 as [|p ps (Hne & Hl & Hr) _ IH]; simpl; [easy|].
  destruct IH as (IHl & IHr & IHne).
  split; [now apply lstrip_app|]. split.
  - destruct ps as [|q qs].
    + simpl. now rewrite append_empty_r.
    + apply rstrip_app; [apply IHne; discriminate|exact IHr].
  - intros _. destruct p; [contradiction|discriminate].
Qed.

Lemma stripped_strings_clean (e : PageElement) :
  Forall (fun p => p <> "" /\ lstrip p = p /\ rstrip p = p)
    (stripped_strings e).
Proof.
  unfold stripped_strings.
  induction (descendants e) as [|d ds IH]; simpl; [constructor|].
  apply Forall_app. split; [|exact IH].
  destruct d as [| s]; [constructor|].
  simpl. destruct (String.eqb_spec (strip s) ""); simpl; constructor;
    [|constructor].
  auto using strip_lstrip, strip_rstrip.
Qed.

Lemma get_text_strip_stripped (e : PageElement) :
  strip (get_text_strip e) = get_text_strip e.
Proof.
  unfold get_text_strip, strip.
  destruct (concat_stripped _ (stripped_strings_clean e)) as (Hl & Hr & _).
  now rewrite Hl, Hr.
Qed.

End StripFacts.

(* ===================================================================== *)
(** ** financial_data_extractor.py: further properties *)
(* ===================================================================== *)
Module ExtractorMore.
Import PyFacts BindTactics ExtractorFacts.

(** What a successful extraction read from the metadata. *)
Lemma extract_data_Some_info (yf : provider) (ticker : string) (m : metrics) :
  extract_data yf ticker = Some m ->
  exists stock i,
    yf ticker = Ok stock /\
    info stock = Ok i /\
    stock_name m = default (PStr "N/A") (default ∅ i !! "longName") /\
    market_cap m = default (PInt 0) (default ∅ i !! "marketCap") /\
    price_earnings_of (default (PInt 0) (default ∅ i !! "currentPrice"))
                      (default (PInt 0) (default ∅ i !! "trailingEps"))
    = Ok (price_earnings m).
Proof.
  unfold extract_data, extract_data_try. intros H.
  step H. rename a into stock.
  step H. destruct a as [bs|]; [|discriminate H].
  step H. destruct a as [ist|]; [|discriminate H].
  do 4 step H. step H. do 5 step H.
  injection H as <-. simpl. eauto 10.
Qed.



(** X2. The amounts of a retrieved record are those of the most recent
    quarter of the balance sheet, a missing one counting for 0, and the
    debt is the sum of the long-term and the current debt. *)
Theorem balance_sheet_amounts (yf : provider) (ticker : string)
    (m : metrics) :
  extract_data yf ticker = Some m ->
  exists stock bs,
    yf ticker = Ok stock /\
    quarterly_balance_sheet stock = Ok (Some bs) /\
    equity m = latest_value bs "Stockholders Equity" /\
    cash m = latest_value bs "Cash And Cash Equivalents" /\
    debt m = latest_value bs "Long Term Debt"
             + latest_value bs "Current Debt".
Proof.
  intros H.
  apply extract_data_Some in H
    as (stock & bs & ist & i & ttm & ltd & cd & Hs & Hb & _ & _ & He & Hc
        & Hl & Hd & Hdebt & _).
  apply safe_int_access_T in He, Hc, Hl, Hd.
  exists stock, bs. unfold latest_value.
  repeat split; try assumption. rewrite Hdebt. now subst ltd cd.
Qed.

(** Reading an infinite value is not one of the failures the helper
    absorbs. *)
Lemma safe_int_access_infinite (stmt : DataFrame) (i : nat)
    (field quarter : string) :
  columns stmt !! i = Some quarter -> field ∈ index stmt ->
  values stmt field quarter = CInf ->
  safe_int_access (T stmt) i field = Raise OverflowError.
Proof.
  intros Hq Hf Hv. unfold safe_int_access, iloc, getitem. simpl.
  rewrite Hq. simpl. rewrite (bool_decide_eq_true_2 _ Hf). simpl.
  now rewrite Hv.
Qed.

Lemma net_income_ttm_Ok (df : DataFrame) (ttm : Z) :
  net_income_ttm df = Ok ttm ->
  forall i, (i < 4)%nat ->
            exists z, safe_int_access df i "Net Income" = Ok z.
Proof.
  unfold net_income_ttm, net_incomes. simpl. intros H.
  do 4 step H.
  intros i Hi.
  destruct i as [|[|[|[|i]]]]; eauto. lia.
Qed.

(** X3. An infinite amount in a cell that the computation reads (one of the
    four balance-sheet fields in the most recent quarter, or the net
    income of one of the four most recent quarters) makes the whole
    computation yield absent. *)
Theorem infinite_amount_gives_absent (yf : provider) (ticker : string)
    (stock : Ticker) (bs ist : DataFrame) (field quarter : string)
    (i : nat) :
  yf ticker = Ok stock ->
  quarterly_balance_sheet stock = Ok (Some bs) ->
  quarterly_incomestmt stock = Ok (Some ist) ->
  (field ∈ ["Stockholders Equity"; "Cash And Cash Equivalents";
            "Long Term Debt"; "Current Debt"] /\
   columns bs !! 0%nat = Some quarter /\ field ∈ index bs /\
   values bs field quarter = CInf)
  \/
  ((i < 4)%nat /\ columns ist !! i = Some quarter /\
   "Net Income" ∈ index ist /\
   values ist "Net Income" quarter = CInf) ->
  extract_data yf ticker = None.
Proof.
  intros Hs Hb Hi Hinf.
  destruct (extract_data yf ticker) as [m|] eqn:H; [exfalso|reflexivity].
  apply extract_data_Some in H
    as (stock' & bs' & ist' & i' & ttm & ltd & cd & Hs' & Hb' & Hi' & _ & He
        & Hc & Hl & Hd & _ & _ & _ & Ht & _).
  rewrite Hs in Hs'. injection Hs' as <-.
  rewrite Hb in Hb'. injection Hb' as <-.
  rewrite Hi in Hi'. injection Hi' as <-.
  destruct Hinf as [(Hfield & Hq & Hin & Hv)|(Hlt & Hq & Hin & Hv)].
  - pose proof (safe_int_access_infinite bs 0 field quarter Hq Hin Hv) as Hr.
    repeat (apply elem_of_cons in Hfield as [->|Hfield]; [congruence|]).
    now apply elem_of_nil in Hfield.
  - destruct (net_income_ttm_Ok _ _ Ht i Hlt) as [z Hz].
    rewrite (safe_int_access_infinite ist i _ quarter Hq Hin Hv) in Hz.
    discriminate Hz.
Qed.

Lemma round_half_even_zero (q : Q) : Qeq q 0 -> round_half_even q = 0.
Proof.
  intros Hq. unfold round_half_even.
  rewrite (Qfloor_comp _ _ Hq). change (Qfloor 0) with 0.
  assert (Hc : (q - inject_Z 0 ?= 1 # 2)%Q = Lt).
  { apply (proj1 (Qlt_alt _ _)). change (inject_Z 0) with 0%Q. lra. }
  now rewrite Hc.
Qed.

Lemma round_zero (q : Q) (n : nat) : Qeq q 0 -> Qeq (round q n) 0.
Proof.
  intros Hq. unfold round. rewrite round_half_even_zero.
  - apply Qmult_0_l.
  - rewrite Hq. apply Qmult_0_l.
Qed.

(** X4. Without metadata (the provider has none, or an empty one) a
    retrieved record is named "N/A" and has a market capitalisation of
    0, a Faustmann ratio of zero and a price/earnings ratio of 0.0. *)
Theorem no_metadata_defaults (yf : provider) (ticker : string)
    (stock : Ticker) (m : metrics) :
  extract_data yf ticker = Some m ->
  yf ticker = Ok stock ->
  info stock = Ok None \/ info stock = Ok (Some ∅) ->
  stock_name m = PStr "N/A" /\
  market_cap m = PInt 0 /\
  Qeq (faustmann m) 0 /\
  price_earnings m = 0%Q.
Proof.
  intros H Hs Hinfo.
  pose proof (extract_data_Some _ _ _ H)
    as (stock1 & bs & ist & i1 & ttm & ltd & cd & Hs1 & _ & _ & _ & _ & _ & _
        & _ & _ & _ & Hf & _).
  apply extract_data_Some_info in H
    as (stock' & i & Hs' & Hi & Hname & Hcap & Hpe).
  rewrite Hs in Hs'. injection Hs' as <-.
  assert (Hempty : default ∅ i = (∅ : gmap string pyval)).
  { destruct Hinfo as [Hn|Hn]; rewrite Hn in Hi; now injection Hi as <-. }
  rewrite Hempty in Hname, Hcap, Hpe. rewrite !lookup_empty in *.
  simpl in Hname, Hcap. change (Ok 0%Q = Ok (price_earnings m)) in Hpe.
  split; [exact Hname|]. split; [exact Hcap|].
  split; [|congruence].
  rewrite Hcap in Hf.
  destruct (Z.eq_dec (equity m + cash m - debt m) 0) as [Hz|Hnz].
  - rewrite Hz, faustmann_of_zero in Hf. injection Hf as <-. reflexivity.
  - destruct (faustmann_of_Ok _ _ _ Hnz Hf) as (mc & [= <-] & ->).
    apply round_zero, Qmult_0_l.
Qed.









Lemma balance_sheet_amounts_witness :
  extract_data Scenario.yf "ACME" = Some Scenario.acme_metrics /\
  exists stock bs,
    Scenario.yf "ACME" = Ok stock /\
    quarterly_balance_sheet stock = Ok (Some bs) /\
    let m := Scenario.acme_metrics in
    equity m = latest_value bs "Stockholders Equity" /\
    cash m = latest_value bs "Cash And Cash Equivalents" /\
    debt m = latest_value bs "Long Term Debt"
             + latest_value bs "Current Debt".
Proof.
  split; [vm_compute; reflexivity|].
  apply (balance_sheet_amounts Scenario.yf "ACME").
  vm_compute. reflexivity.
Defined.

Lemma infinite_amount_gives_absent_witness :
  values MoreScenario.glitch_balance_sheet "Stockholders Equity" "2024-09-30"
  = CInf /\
  extract_data MoreScenario.yf "GLITCH" = None.
Proof.
  split; [reflexivity|].
  apply (infinite_amount_gives_absent MoreScenario.yf "GLITCH" _
           MoreScenario.glitch_balance_sheet Scenario.acme_income_statement
           "Stockholders Equity" "2024-09-30" 0 eq_refl eq_refl eq_refl).
  left. repeat split; [set_solver|set_solver].
Defined.

Lemma no_metadata_defaults_witness :
  extract_data MoreScenario.yf "BARE" = Some MoreScenario.bare_metrics /\
  let m := MoreScenario.bare_metrics in
  stock_name m = PStr "N/A" /\
  market_cap m = PInt 0 /\
  Qeq (faustmann m) 0 /\
  price_earnings m = 0%Q.
Proof.
  split; [vm_compute; reflexivity|].
  apply (no_metadata_defaults MoreScenario.yf "BARE" MoreScenario.bare_stock).
  - vm_compute. reflexivity.
  - reflexivity.
  - left. reflexivity.
Defined.




End ExtractorMore.

(* ===================================================================== *)
(** ** ticker_processor.py: properties *)
(* ===================================================================== *)
Module ProcessorMore.



End ProcessorMore.

(* ===================================================================== *)
(** ** input_csv_parser.py: properties *)
(* ===================================================================== *)
Module InputMore.
Import StripFacts.

(** What one row of the file adds to the ticker list. *)
Lemma fold_get_tickers_step (rows : list (list string)) (acc : list string) :
  fold_left get_tickers_step rows acc
  = acc ++ List.filter nonempty (map strip (omap head rows)).
Proof.
  revert acc. induction rows as [|row rows IH]; intros acc; simpl.
  - now rewrite app_nil_r.
  - rewrite IH. destruct row as [|field fields]; simpl; [reflexivity|].
    unfold nonempty.
    destruct (negb (String.eqb (strip field) "")); simpl; [|reflexivity].
    now rewrite <- app_assoc.
Qed.

Lemma get_tickers_read (fs : FileSystem) (file_path : string)
    (rows : list (list string)) :
  read_csv fs file_path = Ok rows ->
  get_tickers fs file_path
  = List.filter nonempty (map strip (omap head rows)).
Proof.
  intros Hr. unfold get_tickers. rewrite Hr. apply fold_get_tickers_step.
Qed.

(** X9. The tickers read from a file are, in row order, the first fields of
    its non-empty rows with the surrounding white space removed, the
    blank ones dropped; none of them is empty or has white space at
    either end. *)
Theorem get_tickers_stripped_first_fields (fs : FileSystem)
    (file_path : string) (rows : list (list string)) :
  read_csv fs file_path = Ok rows ->
  get_tickers fs file_path
  = List.filter nonempty (map strip (omap head rows)) /\
  Forall (fun t => t <> "" /\ stripped t) (get_tickers fs file_path).
Proof.
  intros Hr. rewrite (get_tickers_read _ _ _ Hr). split; [reflexivity|].
  apply Forall_forall. intros t Ht.
  apply list_elem_of_In, filter_In in Ht as [Hin Hne].
  apply in_map_iff in Hin as (field & <- & _).
  split; [|apply strip_idem].
  unfold nonempty in Hne. intros Heq. rewrite Heq in Hne. discriminate Hne.
Qed.

(** X10. A ticker file that does not exist or cannot be opened gives no
    ticker, and the processing flow then returns no record. *)
Theorem missing_ticker_file_gives_nothing (fs : FileSystem) (yf : provider)
    (file_path : string) :
  file_path ∈ denied fs \/ csv_files fs !! file_path = None ->
  get_tickers fs file_path = [] /\
  ticker_processing_flow fs yf file_path = [].
Proof.
  intros H.
  assert (Hg : get_tickers fs file_path = []).
  { unfold get_tickers, read_csv.
    destruct (bool_decide_reflect (file_path ∈ denied fs)) as [|Hd];
      [reflexivity|].
    destruct H as [H|H]; [contradiction|]. now rewrite H. }
  split; [exact Hg|]. unfold ticker_processing_flow. now rewrite Hg.
Qed.

Lemma get_tickers_stripped_first_fields_witness :
  read_csv Scenario.fs "tickers.csv"
  = Ok [["ACME"]; ["NOINC"]; [" "]; ["UNKNOWN"]] /\
  get_tickers Scenario.fs "tickers.csv"
  = List.filter nonempty
      (map strip (omap head [["ACME"]; ["NOINC"]; [" "]; ["UNKNOWN"]])) /\
  Forall (fun t => t <> "" /\ stripped t)
    (get_tickers Scenario.fs "tickers.csv").
Proof.
  split; [reflexivity|].
  apply (get_tickers_stripped_first_fields Scenario.fs "tickers.csv").
  reflexivity.
Defined.

Lemma missing_ticker_file_gives_nothing_witness :
  csv_files Scenario.fs !! "nothing.csv" = None /\
  get_tickers Scenario.fs "nothing.csv" = [] /\
  ticker_processing_flow Scenario.fs Scenario.yf "nothing.csv" = [].
Proof.
  split; [reflexivity|].
  apply (missing_ticker_file_gives_nothing Scenario.fs Scenario.yf
           "nothing.csv").
  right. reflexivity.
Defined.

End InputMore.

(* ===================================================================== *)
(** ** ticker_processing_flow.py: further properties *)
(* ===================================================================== *)
Module FlowMore.
Import FlowFacts.

Lemma process_ticker_Ticker (yf : provider) (ticker : string) :
  process_ticker yf ticker !! "Ticker"
  = if retrieved yf ticker then Some (PStr ticker) else None.
Proof.
  unfold process_ticker, retrieved.
  destruct (extract_data yf ticker) as [m|]; reflexivity.
Qed.

(** X7. The entries of the output that carry a ticker are, in input order,
    exactly the tickers that passed validation and for which the metrics
    computation returned a record. *)
Theorem records_follow_input_order (yf : provider) (tickers : list string) :
  omap (fun data : gmap string pyval => data !! "Ticker")
       (process_all yf tickers)
  = map PStr
      (List.filter
         (fun t => check_ticker_validity yf t && retrieved yf t) tickers).
Proof.
  rewrite process_all_spec.
  induction tickers as [|t ts IH]; simpl; [reflexivity|].
  destruct (check_ticker_validity yf t); simpl; [|exact IH].
  rewrite process_ticker_Ticker.
  destruct (retrieved yf t); simpl; [f_equal|]; exact IH.
Qed.

(** X8. The flow keeps no state between tickers: processing a list is
    processing its parts one after the other; and the output has one
    entry for every ticker that passed validation, so at most one per
    input ticker. *)
Theorem flow_is_per_ticker (yf : provider) (tickers1 tickers2 : list string) :
  process_all yf (tickers1 ++ tickers2)
  = process_all yf tickers1 ++ process_all yf tickers2 /\
  length (process_all yf tickers1)
  = length (List.filter (check_ticker_validity yf) tickers1) /\
  (length (process_all yf tickers1) <= length tickers1)%nat.
Proof.
  rewrite !process_all_spec. split; [|split].
  - now rewrite List.filter_app, map_app.
  - now rewrite length_map.
  - rewrite length_map. apply List.filter_length_le.
Qed.

End FlowMore.

(* ===================================================================== *)
(** ** screening_parser.py: further properties *)
(* ===================================================================== *)
Module ParserMore.
Import StripFacts ParserFacts.

Lemma row_tickers_stripped (row : PageElement) :
  Forall stripped (row_tickers row).
Proof.
  unfold row_tickers.
  destruct (find_all "td" row) as [|c0 [|c1 rest]]; try constructor.
  destruct (nonempty (get_text_strip c1)); repeat constructor.
  apply get_text_strip_stripped.
Qed.

Lemma row_tickers_at_most_one (row : PageElement) :
  (length (row_tickers row) <= 1)%nat.
Proof.
  unfold row_tickers.
  destruct (find_all "td" row) as [|c0 [|c1 rest]]; simpl; try lia.
  destruct (nonempty (get_text_strip c1)); simpl; lia.
Qed.

(** X11. No extracted ticker has white space at either end. *)
Theorem extracted_tickers_stripped (fs : FileSystem) (file_path : string)
    (tickers : list string) :
  parse_screening_html fs file_path = Ok tickers ->
  Forall stripped tickers.
Proof.
  destruct (read_html fs file_path) as [soup|e] eqn:Hr.
  - rewrite (parse_screening_html_read _ _ _ Hr). intros [= <-].
    destruct (results_body soup) as [tbody|]; [|constructor].
    induction (find_all "tr" tbody) as [|row rows IH]; simpl;
      [constructor|].
    apply Forall_app. split; [apply row_tickers_stripped|exact IH].
  - rewrite (parse_screening_html_unread _ _ _ Hr). intros [= <-].
    constructor.
Qed.

(** X12. The extractor returns at most one ticker per row of the table
    body. *)
Theorem at_most_one_ticker_per_row (fs : FileSystem) (file_path : string)
    (soup tbody : PageElement) (tickers : list string) :
  read_html fs file_path = Ok soup ->
  results_body soup = Some tbody ->
  parse_screening_html fs file_path = Ok tickers ->
  (length tickers <= length (find_all "tr" tbody))%nat.
Proof.
  intros Hr Hb. rewrite (parse_screening_html_read _ _ _ Hr), Hb.
  intros [= <-].
  induction (find_all "tr" tbody) as [|row rows IH]; simpl; [lia|].
  rewrite length_app. pose proof (row_tickers_at_most_one row). lia.
Qed.

Lemma extracted_tickers_stripped_witness :
  parse_screening_html Scenario.fs (html_path 250) = Ok ["AAPL"; "MSFT"] /\
  Forall stripped ["AAPL"; "MSFT"].
Proof.
  split; [reflexivity|].
  apply (extracted_tickers_stripped Scenario.fs (html_path 250)).
  reflexivity.
Defined.

Lemma at_most_one_ticker_per_row_witness :
  parse_screening_html Scenario.fs (html_path 1000) = Ok [] /\
  (length (@nil string)
   <= length (find_all "tr" (Tag "tbody" [] Scenario.blank_rows)))%nat.
Proof.
  split; [reflexivity|].
  apply (at_most_one_ticker_per_row Scenario.fs (html_path 1000)
           Scenario.page_blank (Tag "tbody" [] Scenario.blank_rows) []);
    reflexivity.
Defined.

End ParserMore.

(* ===================================================================== *)
(** ** tickers_csv_aggregator.py: further properties *)
(* ===================================================================== *)
Module AggregatorMore.
Import StripFacts ParserFacts AggregatorFacts InputMore FlowFacts.


(** The outcome of the aggregation. *)
Lemma aggregate_outcome (fs : FileSystem) (market_caps : list Z)
    (output_csv_path : string) :
  aggregate_tickers_from_html fs market_caps output_csv_path
  = if bool_decide (output_csv_path ∈ denied fs) then Raise OSError
    else Ok {| html_files := html_files fs;
               csv_files :=
                 <[output_csv_path :=
                     csv_rows
                       (sorted_set (flat_map (extracted fs) market_caps))]>
                   (csv_files fs);
               denied := denied fs |}.
Proof.
  unfold aggregate_tickers_from_html. rewrite unique_tickers_spec.
  reflexivity.
Qed.

Lemma extracted_clean (fs : FileSystem) (cap : Z) :
  Forall (fun t => t <> "" /\ stripped t) (extracted fs cap).
Proof.
  pose proof (parse_screening_html_extracted fs cap) as Hp.
  destruct (read_html fs (html_path cap)) as [soup|e] eqn:Hr.
  - rewrite (parse_screening_html_read _ _ _ Hr) in Hp.
    injection Hp as <-.
    destruct (results_body soup) as [tbody|]; [|constructor].
    induction (find_all "tr" tbody) as [|row rows IH]; simpl;
      [constructor|].
    apply Forall_app. split; [|exact IH].
    unfold row_tickers.
    destruct (find_all "td" row) as [|c0 [|c1 rest]]; try constructor.
    unfold nonempty.
    destruct (String.eqb_spec (get_text_strip c1) ""); simpl;
      repeat constructor; [assumption|apply get_text_strip_stripped].
  - rewrite (parse_screening_html_unread _ _ _ Hr) in Hp.
    injection Hp as <-. constructor.
Qed.

(** Reading back single-field rows of clean tickers gives the tickers. *)
Lemma read_back_rows (tickers : list string) :
  Forall (fun t => t <> "" /\ stripped t) tickers ->
  List.filter nonempty (map strip (omap head (csv_rows tickers))) = tickers.
Proof.
  induction 1 as [|t ts [Hne Hs] _ IH]; simpl; [reflexivity|].
  rewrite Hs. unfold nonempty at 1.
  destruct (String.eqb_spec t ""); [contradiction|]. simpl.
  f_equal. exact IH.
Qed.

(** X13. What the aggregation writes is what the processing flow reads: after
    a successful aggregation, the ticker list read from the output file
    is the sorted duplicate-free list of the extracted tickers, and the
    flow run on that file processes exactly those tickers. *)
Theorem aggregated_file_reads_back (fs fs' : FileSystem) (yf : provider)
    (market_caps : list Z) (output_csv_path : string) :
  aggregate_tickers_from_html fs market_caps output_csv_path = Ok fs' ->
  let final := sorted_set (flat_map (extracted fs) market_caps) in
  get_tickers fs' output_csv_path = final /\
  ticker_processing_flow fs' yf output_csv_path = process_all yf final.
Proof.
  rewrite aggregate_outcome.
  destruct (bool_decide_reflect (output_csv_path ∈ denied fs)) as [|Hd];
    [discriminate|].
  intros [= <-]. cbv zeta.
  set (final := sorted_set (flat_map (extracted fs) market_caps)).
  assert (Hg : get_tickers
                 {| html_files := html_files fs;
                    csv_files := <[output_csv_path := csv_rows final]>
                                   (csv_files fs);
                    denied := denied fs |} output_csv_path = final).
  { erewrite get_tickers_read.
    - apply read_back_rows. apply Forall_forall. intros t Ht.
      apply elem_of_sorted_set, elem_of_flat_map_extracted in Ht
        as (cap & _ & Ht).
      pose proof (extracted_clean fs cap) as Hc.
      rewrite Forall_forall in Hc. exact (Hc t Ht).
    - unfold read_csv. simpl. rewrite (bool_decide_eq_false_2 _ Hd).
      now rewrite lookup_insert_eq. }
  split; [exact Hg|]. unfold ticker_processing_flow. now rewrite Hg.
Qed.

(** X14. A failure to write the output file is not swallowed: the aggregation
    raises it, whatever was extracted. *)
Theorem write_failure_is_raised (fs : FileSystem) (market_caps : list Z)
    (output_csv_path : string) :
  output_csv_path ∈ denied fs ->
  aggregate_tickers_from_html fs market_caps output_csv_path
  = Raise OSError.
Proof.
  intros Hd. rewrite aggregate_outcome.
  now rewrite (bool_decide_eq_true_2 _ Hd).
Qed.



Lemma length_append (a b : string) :
  String.length (a +:+ b) = (String.length a + String.length b)%nat.
Proof.
  induction a as [|c a IH]; [reflexivity|].
  change (String c a +:+ b) with (String c (a +:+ b)). simpl. now rewrite IH.
Qed.

Lemma append_suffix_inj (x y suffix : string) :
  x +:+ suffix = y +:+ suffix -> x = y.
Proof.
  revert y. induction x as [|a x IH]; intros [|b y] H.
  - reflexivity.
  - exfalso. apply (f_equal String.length) in H.
    rewrite !length_append in H. simpl in H. lia.
  - exfalso. apply (f_equal String.length) in H.
    rewrite !length_append in H. simpl in H. lia.
  - change (String a x +:+ suffix) with (String a (x +:+ suffix)) in H.
    change (String b y +:+ suffix) with (String b (y +:+ suffix)) in H.
    injection H as -> H. f_equal. now apply IH.
Qed.

(** X17. Different thresholds never share a file. *)
Theorem html_path_injective (cap1 cap2 : Z) :
  html_path cap1 = html_path cap2 -> cap1 = cap2.
Proof.
  unfold html_path. intros H.
  apply (inj (String.app _)) in H.
  apply append_suffix_inj in H.
  exact (inj pretty _ _ H).
Qed.

Lemma scenario_aggregated :
  aggregate_tickers_from_html Scenario.fs [250; 500] "tickers.csv"
  = Ok MoreScenario.aggregated_fs.
Proof. vm_compute. reflexivity. Defined.

Lemma aggregated_file_reads_back_witness :
  aggregate_tickers_from_html Scenario.fs [250; 500] "tickers.csv"
  = Ok MoreScenario.aggregated_fs /\
  let final := sorted_set (flat_map (extracted Scenario.fs) [250; 500]) in
  get_tickers MoreScenario.aggregated_fs "tickers.csv" = final /\
  ticker_processing_flow MoreScenario.aggregated_fs Scenario.yf "tickers.csv"
  = process_all Scenario.yf final.
Proof.
  split; [exact scenario_aggregated|].
  exact (aggregated_file_reads_back Scenario.fs MoreScenario.aggregated_fs
           Scenario.yf [250; 500] "tickers.csv" scenario_aggregated).
Defined.

Lemma write_failure_is_raised_witness :
  html_path 2500 ∈ denied Scenario.fs /\
  aggregate_tickers_from_html Scenario.fs [250; 500] (html_path 2500)
  = Raise OSError.
Proof.
  assert (H : html_path 2500 ∈ denied Scenario.fs)
    by (vm_compute; set_solver).
  split; [exact H|].
  exact (write_failure_is_raised Scenario.fs [250; 500] (html_path 2500) H).
Defined.



Lemma html_path_injective_witness :
  html_path 250 = html_path 250 /\ 250 = 250.
Proof.
  split; [reflexivity|].
  exact (html_path_injective 250 250 eq_refl).
Defined.

End AggregatorMore.
